(** * The divisibility predicate [foobar] and its driver [main]

    A shallow embedding of [src/main.cpp].  The program passes a two-field
    aggregate by [const&]; the reference is modelled as a location of a store
    of objects, so that what the callee reads and what it leaves untouched
    can be stated.  Unsigned 32-bit values are integers with the wrap-around
    written out; the [%] operator is partial (a zero divisor is an undefined
    operation and traps). *)

From Stdlib Require Import ZArith Lia List.
From stdpp Require Import base strings gmap.
Import ListNotations.

Local Open Scope Z_scope.

(** ** Unsigned 32-bit integers *)

Definition UINT32_MOD : Z := 2 ^ 32.

(** Membership in the value range of [uint32_t]. *)
Definition uint32 (z : Z) : Prop := 0 <= z < UINT32_MOD.

(** Conversion to [uint32_t]: reduction modulo 2^32. *)
Definition to_uint32 (z : Z) : Z := z mod UINT32_MOD.

(** ** The aggregate

    [struct Data { uint32_t a; uint32_t d; };] *)

Record Data : Type := mkData { a : Z; d : Z }.

Definition wf_Data (p : Data) : Prop := uint32 (a p) /\ uint32 (d p).

(** ** Machine state

    A reference is the location of an object.  The machine also keeps a log
    of what was executed: every evaluation of [%] with its operands, and
    every completed call of the predicate. *)

Abbreviation ref := positive.

Inductive event : Type :=
| EvMod (dividend divisor : Z)
| EvCall (arg : ref) (res : bool).

Record machine : Type := mkMachine {
  heap : gmap ref Data;
  log : list event
}.

Inductive trap : Type :=
| DivByZero
| DanglingRef.

Inductive outcome (A : Type) : Type :=
| Val (x : A)
| Trap (t : trap).

Arguments Val {A} x.
Arguments Trap {A} t.

(** ** The state-and-trap monad *)

Definition M (A : Type) : Type := machine -> outcome (A * machine).

Definition ret {A} (x : A) : M A := fun s => Val (x, s).

Definition bind {A B} (m : M A) (k : A -> M B) : M B :=
  fun s =>
    match m s with
    | Val (x, s') => k x s'
    | Trap t => Trap t
    end.

Definition raise {A} (t : trap) : M A := fun _ => Trap t.

Notation "'let!' x ':=' m 'in' k" := (bind m (fun x => k))
  (at level 10, x name, m at level 100, k at level 200).
Notation "m ';;' k" := (bind m (fun _ => k))
  (at level 100, k at level 200, right associativity).

(** *** Primitive operations *)

(** Reading a member through a reference. *)
Definition field (sel : Data -> Z) (r : ref) : M Z :=
  fun s =>
    match heap s !! r with
    | Some p => Val (sel p, s)
    | None => Trap DanglingRef
    end.

(** Appending to the execution log. *)
Definition emit (e : event) : M unit :=
  fun s => Val (tt, mkMachine (heap s) (log s ++ [e])).

(** [y % x] on [uint32_t] operands: the evaluation is logged, and a zero
    divisor traps. *)
Definition umod (y x : Z) : M Z :=
  emit (EvMod y x) ;;
  if x =? 0 then raise DivByZero
  else ret (to_uint32 (y mod x)).

(** A local object comes into existence at a location not in use. *)
Definition alloc (p : Data) : M ref :=
  fun s =>
    let r := fresh (dom (heap s)) in
    Val (r, mkMachine (<[r := p]> (heap s)) (log s)).

(** A local object goes out of scope. *)
Definition free (r : ref) : M unit :=
  fun s => Val (tt, mkMachine (delete r (heap s)) (log s)).

(** [!x] on an integer. *)
Definition lnot (x : Z) : bool := x =? 0.

(** ** The program *)

(** [bool foobar(const Data& data)] *)
Definition foobar (data : ref) : M bool :=
  let! na := field a data in
  let! guard :=
    (if lnot na then ret true
     else let! nd := field d data in ret (lnot nd)) in
  if guard then ret false
  else
    let! y := field d data in
    let! x := field a data in
    let! result := umod y x in
    ret (result =? 0).

(** A call of [foobar] from the driver, recorded in the log. *)
Definition call_foobar (data : ref) : M bool :=
  let! res := foobar data in
  emit (EvCall data res) ;;
  ret res.

(** [int main()] *)
Definition main : M Z :=
  let! data := alloc (mkData (to_uint32 5) (to_uint32 55)) in
  let! result := call_foobar data in
  let rv := Z.b2z result in
  free data ;;
  ret rv.

(** The body of [main] with the pair it builds as a parameter; [main] is
    [driver] at the pair (5, 55). *)
Definition driver (p : Data) : M Z :=
  let! data := alloc p in
  let! result := call_foobar data in
  let rv := Z.b2z result in
  free data ;;
  ret rv.

(** ** The process

    What the operating system hands a program when it starts it: the
    command line, the environment variables and the files within reach. *)

Record process : Type := mkProcess {
  argv : list string;
  environ : list (string * string);
  files : gmap string (list Z)
}.

(** Start-up and termination.  [main] is declared [int main()]: nothing of
    the process is passed to it, and its body names no stream, file or
    environment function (the [<iostream>] header is included and unused).
    The value [main] returns is the exit status. *)
Definition run_program (p : process) (s : machine)
  : outcome (Z * process * machine) :=
  match main s with
  | Val (status, s') => Val (status, p, s')
  | Trap t => Trap t
  end.

(** ** Auxiliary definitions for the statements *)

(** The reference [r] designates, in machine [s], a pair with fields [x]
    and [y], both in the range of [uint32_t]. *)
Definition holds (s : machine) (r : ref) (x y : Z) : Prop :=
  heap s !! r = Some (mkData x y) /\ wf_Data (mkData x y).

(** The boolean computed by the predicate, as a function of the fields. *)
Definition divides_nz (x y : Z) : bool :=
  negb (x =? 0) && negb (y =? 0) && (y mod x =? 0).

(** The log entries a call of the predicate adds. *)
Definition foobar_events (x y : Z) : list event :=
  if (x =? 0) || (y =? 0) then [] else [EvMod y x].

Definition is_call (e : event) : bool :=
  match e with EvCall _ _ => true | EvMod _ _ => false end.

Definition nonzero_divisor (e : event) : Prop :=
  match e with EvMod _ x => x <> 0 | EvCall _ _ => True end.

(** A machine with a single pair, for concrete runs. *)
Definition sample (x y : Z) : machine :=
  mkMachine {[ 1%positive := mkData x y ]} [].

(** A machine holding (9, 9) at location 2. *)
Definition sample_nine : machine :=
  mkMachine {[ 2%positive := mkData 9 9 ]} [].

(** A process with a command line, an environment and a file. *)
Definition sample_process : process :=
  mkProcess ["references_demo"; "7"; "3"]%string
            [("A", "7"); ("D", "3")]%string
            {[ "input.txt"%string := [55; 51] ]}.

(** A machine with other objects and a history, holding (6, 18) at
    location 3. *)
Definition sample_busy : machine :=
  mkMachine (<[3%positive := mkData 6 18]> (heap (sample 1 1)))
            [EvCall 1%positive true].


(** ** Arithmetic of [uint32_t] *)

Section Uint32.

Lemma to_uint32_id z : uint32 z -> to_uint32 z = z.
Proof. unfold uint32, to_uint32. intros Hz. now apply Z.mod_small. Qed.

Lemma uint32_mod x y : uint32 x -> uint32 y -> x <> 0 -> uint32 (y mod x).
Proof.
  unfold uint32. intros Hx Hy Hnz.
  assert (0 <= y mod x < x) by (apply Z.mod_pos_bound; lia). lia.
Qed.

Lemma umod_result x y :
  uint32 x -> uint32 y -> x <> 0 -> to_uint32 (y mod x) = y mod x.
Proof. intros. now apply to_uint32_id, uint32_mod. Qed.

(** A positive multiple of a positive number is at least that number. *)
Lemma mod_zero_le x y : 0 < x -> 0 < y -> y mod x = 0 -> x <= y.
Proof.
  intros Hx Hy Hm.
  destruct (Z_lt_le_dec y x) as [Hlt | Hle]; [| exact Hle].
  rewrite Z.mod_small in Hm by lia. lia.
Qed.

End Uint32.

(** ** Equations of the monad and its primitives *)

Lemma bind_val {A B} (m : M A) (k : A -> M B) s v s' :
  m s = Val (v, s') -> bind m k s = k v s'.
Proof. unfold bind. now intros ->. Qed.

Lemma bind_trap {A B} (m : M A) (k : A -> M B) s t :
  m s = Trap t -> bind m k s = Trap t.
Proof. unfold bind. now intros ->. Qed.

Lemma field_val sel r s p :
  heap s !! r = Some p -> field sel r s = Val (sel p, s).
Proof. unfold field. now intros ->. Qed.

Lemma umod_val y x s :
  x <> 0 ->
  umod y x s =
  Val (to_uint32 (y mod x), mkMachine (heap s) (log s ++ [EvMod y x])).
Proof.
  intros Hnz. unfold umod.
  rewrite (bind_val _ _ _ _ _ eq_refl).
  now destruct (Z.eqb_spec x 0).
Qed.

Lemma umod_zero y s : umod y 0 s = Trap DivByZero.
Proof. reflexivity. Qed.

(** ** Running the predicate *)

Section Run.

Variables (s : machine) (r : ref) (x y : Z).
Hypothesis Hpair : holds s r x y.

(** One call, as a function of the two fields: the result, and the
    machine it leaves. *)
Lemma foobar_run :
  foobar r s =
  Val (divides_nz x y, mkMachine (heap s) (log s ++ foobar_events x y)).
Proof using Hpair.
  destruct Hpair as (Hlook & Hx & Hy); cbn in Hx, Hy.
  unfold foobar, divides_nz, foobar_events, lnot.
  rewrite (bind_val _ _ _ _ _ (field_val a _ _ _ Hlook)); cbn [a].
  destruct (Z.eqb_spec x 0) as [Hzx | Hnx]; cbn [negb andb orb].
  { rewrite (bind_val _ _ _ _ _ eq_refl). rewrite app_nil_r. now destruct s. }
  rewrite (bind_val _ _ _ _ _
             (bind_val _ _ _ _ _ (field_val d _ _ _ Hlook))); cbn [d].
  unfold ret at 1.
  destruct (Z.eqb_spec y 0) as [Hzy | Hny]; cbn [negb andb orb].
  { rewrite app_nil_r. now destruct s. }
  rewrite (bind_val _ _ _ _ _ (field_val d _ _ _ Hlook)); cbn [d].
  rewrite (bind_val _ _ _ _ _ (field_val a _ _ _ Hlook)); cbn [a].
  rewrite (bind_val _ _ _ _ _ (umod_val _ _ _ Hnx)).
  unfold ret. now rewrite umod_result.
Qed.

(** The pair is still there after the call. *)
Lemma holds_after evs : holds (mkMachine (heap s) (log s ++ evs)) r x y.
Proof using Hpair. exact Hpair. Qed.

End Run.

Lemma divides_nz_true x y :
  divides_nz x y = true <-> x <> 0 /\ y <> 0 /\ y mod x = 0.
Proof.
  unfold divides_nz.
  rewrite !andb_true_iff, !negb_true_iff, !Z.eqb_neq, Z.eqb_eq. tauto.
Qed.

Lemma foobar_events_nonzero x y : Forall nonzero_divisor (foobar_events x y).
Proof.
  unfold foobar_events.
  destruct (Z.eqb_spec x 0) as [-> | Hnx]; cbn; [constructor |].
  destruct (y =? 0); constructor; [exact Hnx | constructor].
Qed.

(** ** Running the driver *)

Lemma call_foobar_run s r x y :
  holds s r x y ->
  call_foobar r s =
  Val (divides_nz x y,
       mkMachine (heap s)
                 (log s ++ foobar_events x y ++ [EvCall r (divides_nz x y)])).
Proof.
  intros Hpair. unfold call_foobar.
  rewrite (bind_val _ _ _ _ _ (foobar_run _ _ _ _ Hpair)).
  rewrite (bind_val _ _ _ _ _ eq_refl). cbn.
  now rewrite <- app_assoc.
Qed.

Lemma alloc_fresh s : heap s !! fresh (dom (heap s)) = None.
Proof. apply not_elem_of_dom, is_fresh. Qed.

Lemma alloc_holds x y s l :
  uint32 x -> uint32 y ->
  holds (mkMachine (<[fresh (dom (heap s)) := mkData x y]> (heap s)) l)
        (fresh (dom (heap s))) x y.
Proof.
  intros Hx Hy. split; [apply lookup_insert_eq | split; assumption].
Qed.

Lemma fixture_uint32 : uint32 5 /\ uint32 55.
Proof. unfold uint32, UINT32_MOD. lia. Qed.

(** The whole run of [main], from any machine. *)
Lemma main_run s :
  main s =
  Val (1, mkMachine (heap s)
                    (log s ++ [EvMod 55 5; EvCall (fresh (dom (heap s))) true])).
Proof.
  unfold main.
  rewrite (bind_val _ _ _ _ _ eq_refl).
  change (to_uint32 5) with 5. change (to_uint32 55) with 55.
  destruct fixture_uint32 as [H5 H55].
  rewrite (bind_val _ _ _ _ _
             (call_foobar_run _ _ _ _ (alloc_holds 5 55 s (log s) H5 H55))).
  rewrite (bind_val _ _ _ _ _ eq_refl).
  cbn. unfold ret. do 3 f_equal.
  apply delete_insert_id, alloc_fresh.
Qed.

(** The whole run of the driver on any pair, from any machine. *)
Lemma driver_run s x y :
  uint32 x -> uint32 y ->
  driver (mkData x y) s =
  Val (Z.b2z (divides_nz x y),
       mkMachine (heap s)
                 (log s ++ foobar_events x y
                        ++ [EvCall (fresh (dom (heap s))) (divides_nz x y)])).
Proof.
  intros Hx Hy. unfold driver.
  rewrite (bind_val _ _ _ _ _ eq_refl).
  rewrite (bind_val _ _ _ _ _
             (call_foobar_run _ _ _ _ (alloc_holds x y s (log s) Hx Hy))).
  rewrite (bind_val _ _ _ _ _ eq_refl).
  cbn. unfold ret. do 3 f_equal.
  apply delete_insert_id, alloc_fresh.
Qed.

Lemma main_driver : main = driver (mkData (to_uint32 5) (to_uint32 55)).
Proof. reflexivity. Qed.

Lemma run_program_val p s status s' :
  main s = Val (status, s') -> run_program p s = Val (status, p, s').
Proof. unfold run_program. now intros ->. Qed.

(** ** The predicate *)

(** C1: for every pair of unsigned 32-bit integers, [foobar] returns [true]
    if and only if the field [a] is nonzero, the field [d] is nonzero and
    [d mod a] is 0; on (5, 55) it returns [true] and on (5, 56) [false]. *)
Theorem foobar_true_iff (s : machine) (r : ref) (x y : Z) :
  holds s r x y ->
  exists b s',
    foobar r s = Val (b, s') /\
    (b = true <-> x <> 0 /\ y <> 0 /\ y mod x = 0) /\
    (x = 5 -> y = 55 -> b = true) /\
    (x = 5 -> y = 56 -> b = false).
Proof.
  intros Hpair. eexists _, _. split; [apply (foobar_run _ _ _ _ Hpair) |].
  split; [apply divides_nz_true |].
  split; intros -> ->; reflexivity.
Qed.

Lemma foobar_true_iff_witness :
  exists b s',
    foobar 1%positive (sample 5 56) = Val (b, s') /\
    (b = true <-> 5 <> 0 /\ 56 <> 0 /\ 56 mod 5 = 0) /\
    (5 = 5 -> 56 = 55 -> b = true) /\
    (5 = 5 -> 56 = 56 -> b = false).
Proof.
  apply (foobar_true_iff (sample 5 56) 1%positive 5 56).
  split; [reflexivity | split; unfold uint32, UINT32_MOD; simpl; lia].
Defined.

(** C2: if the field [a] is 0 the predicate returns [false] whatever [d]
    is, and if the field [d] is 0 it returns [false] whatever [a] is. *)
Theorem foobar_zero_field (s : machine) (r : ref) (x y : Z) :
  holds s r x y ->
  x = 0 \/ y = 0 ->
  exists s', foobar r s = Val (false, s').
Proof.
  intros Hpair Hz. eexists. rewrite (foobar_run _ _ _ _ Hpair).
  do 2 f_equal. unfold divides_nz.
  destruct Hz as [-> | ->]; [reflexivity |].
  now destruct (x =? 0).
Qed.

Lemma foobar_zero_field_witness :
  (exists s', foobar 1%positive (sample 0 7) = Val (false, s')) /\
  (exists s', foobar 1%positive (sample 7 0) = Val (false, s')).
Proof.
  split.
  - apply (foobar_zero_field (sample 0 7) 1%positive 0 7).
    + split; [reflexivity | split; unfold uint32, UINT32_MOD; simpl; lia].
    + left; reflexivity.
  - apply (foobar_zero_field (sample 7 0) 1%positive 7 0).
    + split; [reflexivity | split; unfold uint32, UINT32_MOD; simpl; lia].
    + right; reflexivity.
Defined.

(** C3: the predicate is total and never traps: on every pair, a zero
    field [a] included, the run ends in a boolean; every [%] it evaluates
    has a nonzero divisor, and with [a = 0] it evaluates none. *)
Theorem foobar_total (s : machine) (r : ref) (x y : Z) :
  holds s r x y ->
  exists b evs,
    foobar r s = Val (b, mkMachine (heap s) (log s ++ evs)) /\
    Forall nonzero_divisor evs /\
    (x = 0 -> evs = []).
Proof.
  intros Hpair. exists (divides_nz x y), (foobar_events x y).
  split; [apply (foobar_run _ _ _ _ Hpair) |].
  split; [apply foobar_events_nonzero |].
  now intros ->.
Qed.

Lemma foobar_total_witness :
  exists b evs,
    foobar 1%positive (sample 0 55)
    = Val (b, mkMachine (heap (sample 0 55)) (log (sample 0 55) ++ evs)) /\
    Forall nonzero_divisor evs /\
    (0 = 0 -> evs = []).
Proof.
  apply (foobar_total (sample 0 55) 1%positive 0 55).
  split; [reflexivity | split; unfold uint32, UINT32_MOD; simpl; lia].
Defined.

(** C5: for every nonzero unsigned 32-bit [n], the predicate on the pair
    [(a = n, d = n)] returns [true]. *)
Theorem foobar_self (s : machine) (r : ref) (n : Z) :
  holds s r n n ->
  n <> 0 ->
  exists s', foobar r s = Val (true, s').
Proof.
  intros Hpair Hn. eexists. rewrite (foobar_run _ _ _ _ Hpair).
  do 2 f_equal. apply divides_nz_true.
  repeat split; try assumption. apply Z.mod_same. assumption.
Qed.

Lemma foobar_self_witness :
  exists s', foobar 1%positive (sample 4294967295 4294967295) = Val (true, s').
Proof.
  apply (foobar_self (sample 4294967295 4294967295) 1%positive 4294967295).
  - split; [reflexivity | split; unfold uint32, UINT32_MOD; simpl; lia].
  - lia.
Defined.

(** C6: for every nonzero unsigned 32-bit [d], the predicate on the pair
    [(a = 1, d)] returns [true]. *)
Theorem foobar_one (s : machine) (r : ref) (y : Z) :
  holds s r 1 y ->
  y <> 0 ->
  exists s', foobar r s = Val (true, s').
Proof.
  intros Hpair Hy. eexists. rewrite (foobar_run _ _ _ _ Hpair).
  do 2 f_equal. apply divides_nz_true.
  repeat split; [lia | assumption | apply Z.mod_1_r].
Qed.

Lemma foobar_one_witness :
  exists s', foobar 1%positive (sample 1 12345) = Val (true, s').
Proof.
  apply (foobar_one (sample 1 12345) 1%positive 12345).
  - split; [reflexivity | split; unfold uint32, UINT32_MOD; simpl; lia].
  - lia.
Defined.

(** C7: the predicate is deterministic and stateless: two successive calls
    on the same pair give the same boolean. *)
Theorem foobar_twice (s : machine) (r : ref) (x y : Z) :
  holds s r x y ->
  exists b s',
    (let! b1 := foobar r in
     let! b2 := foobar r in
     ret (b1, b2)) s = Val ((b, b), s').
Proof.
  intros Hpair. eexists _, _.
  rewrite (bind_val _ _ _ _ _ (foobar_run _ _ _ _ Hpair)).
  rewrite (bind_val _ _ _ _ _
             (foobar_run _ _ _ _ (holds_after _ _ _ _ Hpair _))).
  reflexivity.
Qed.

Lemma foobar_twice_witness :
  exists b s',
    (let! b1 := foobar 1%positive in
     let! b2 := foobar 1%positive in
     ret (b1, b2)) (sample 5 55) = Val ((b, b), s').
Proof.
  apply (foobar_twice (sample 5 55) 1%positive 5 55).
  split; [reflexivity | split; unfold uint32, UINT32_MOD; simpl; lia].
Defined.

(** C8: the predicate has no side effects: the store of objects, and so
    both fields of the caller's pair, is the same after the call; and the
    result depends on the two fields only: on any two machines and
    references that hold the same fields, the results agree. *)
Theorem foobar_frame (s1 s2 : machine) (r1 r2 : ref) (x y : Z) :
  holds s1 r1 x y ->
  holds s2 r2 x y ->
  exists b s1' s2',
    foobar r1 s1 = Val (b, s1') /\
    foobar r2 s2 = Val (b, s2') /\
    heap s1' = heap s1 /\
    heap s2' = heap s2 /\
    heap s1' !! r1 = Some (mkData x y).
Proof.
  intros H1 H2. eexists _, _, _.
  split; [apply (foobar_run _ _ _ _ H1) |].
  split; [apply (foobar_run _ _ _ _ H2) |].
  cbn. repeat split. apply H1.
Qed.

Lemma foobar_frame_witness :
  exists b s1' s2',
    foobar 1%positive (sample 6 18) = Val (b, s1') /\
    foobar 3%positive sample_busy = Val (b, s2') /\
    heap s1' = heap (sample 6 18) /\
    heap s2' = heap sample_busy /\
    heap s1' !! 1%positive = Some (mkData 6 18).
Proof.
  apply (foobar_frame (sample 6 18) sample_busy 1%positive 3%positive 6 18).
  - split; [reflexivity | split; unfold uint32, UINT32_MOD; simpl; lia].
  - split; [reflexivity | split; unfold uint32, UINT32_MOD; simpl; lia].
Defined.

(** C9: whenever the predicate returns [true] on a pair [(a, d)], then
    [1 <= a] and [a <= d]; and on every pair with [0 < d < a] it returns
    [false]. *)
Theorem foobar_true_bounds (s : machine) (r : ref) (x y : Z) :
  holds s r x y ->
  (forall s', foobar r s = Val (true, s') -> 1 <= x <= y) /\
  (0 < y < x -> exists s', foobar r s = Val (false, s')).
Proof.
  intros Hpair.
  pose proof Hpair as (_ & Hx & Hy); cbn in Hx, Hy.
  unfold uint32 in Hx, Hy.
  rewrite (foobar_run _ _ _ _ Hpair). split.
  - intros s' Hrun. injection Hrun as Hb _.
    apply divides_nz_true in Hb as (Hnx & Hny & Hm).
    split; [lia | apply mod_zero_le; [lia | lia | exact Hm]].
  - intros Hlt. eexists. do 2 f_equal.
    apply not_true_is_false. intros Hb.
    apply divides_nz_true in Hb as (Hnx & Hny & Hm).
    apply mod_zero_le in Hm; lia.
Qed.

Lemma foobar_true_bounds_witness :
  (forall s', foobar 1%positive (sample 7 3) = Val (true, s') -> 1 <= 7 <= 3) /\
  (0 < 3 < 7 -> exists s', foobar 1%positive (sample 7 3) = Val (false, s')).
Proof.
  apply (foobar_true_bounds (sample 7 3) 1%positive 7 3).
  split; [reflexivity | split; unfold uint32, UINT32_MOD; simpl; lia].
Defined.

(** ** The driver *)

(** C4: the driver builds one pair, calls the predicate exactly once, and
    the exit status is the boolean of that one call, 0 for [false] and 1 for
    [true].  Stated for the driver on any pair [(x, y)] in place of the
    fixture, and for [main], which is the driver on (5, 55):
    - the location [r] of the pair is not in use before, and the store is
      given back as it was found;
    - what the run adds to the log is what one run of [foobar] on that pair
      adds, followed by the record of one call with the result [b] of that
      run, and no other call;
    - the exit status is 1 when [b] is [true] and 0 when it is [false];
    - [main] adds one evaluation of [55 % 5] and one call to the log, and
      the process started on it ends with status 1 whatever its command
      line, environment and files are, and leaves them as they were. *)
Theorem main_exit_status (p : process) (s : machine) (x y : Z) :
  uint32 x ->
  uint32 y ->
  exists r b s1 evs exit,
    heap s !! r = None /\
    foobar r (mkMachine (<[r := mkData x y]> (heap s)) (log s)) = Val (b, s1) /\
    log s1 ++ [EvCall r b] = log s ++ evs /\
    driver (mkData x y) s = Val (exit, mkMachine (heap s) (log s ++ evs)) /\
    List.length (List.filter is_call evs) = 1%nat /\
    (b = false -> exit = 0) /\
    (b = true -> exit = 1) /\
    main = driver (mkData (to_uint32 5) (to_uint32 55)) /\
    main s
    = Val (1, mkMachine (heap s) (log s ++ [EvMod 55 5; EvCall r true])) /\
    run_program p s
    = Val (1, p, mkMachine (heap s) (log s ++ [EvMod 55 5; EvCall r true])).
Proof.
  intros Hx Hy.
  exists (fresh (dom (heap s))), (divides_nz x y). eexists _, _, _.
  split; [apply alloc_fresh |].
  split; [apply (foobar_run _ _ _ _ (alloc_holds x y s (log s) Hx Hy)) |].
  split; [cbn; symmetry; apply app_assoc |].
  split; [apply (driver_run s x y Hx Hy) |].
  split.
  { unfold foobar_events. now destruct ((x =? 0) || (y =? 0)). }
  split; [now intros -> |].
  split; [now intros -> |].
  split; [apply main_driver |].
  split; [apply main_run |].
  apply run_program_val, main_run.
Qed.

Lemma main_exit_status_witness :
  exists r b s1 evs exit,
    heap (sample 1 1) !! r = None /\
    foobar r (mkMachine (<[r := mkData 5 56]> (heap (sample 1 1)))
                        (log (sample 1 1))) = Val (b, s1) /\
    log s1 ++ [EvCall r b] = log (sample 1 1) ++ evs /\
    driver (mkData 5 56) (sample 1 1)
    = Val (exit, mkMachine (heap (sample 1 1)) (log (sample 1 1) ++ evs)) /\
    List.length (List.filter is_call evs) = 1%nat /\
    (b = false -> exit = 0) /\
    (b = true -> exit = 1) /\
    main = driver (mkData (to_uint32 5) (to_uint32 55)) /\
    main (sample 1 1)
    = Val (1, mkMachine (heap (sample 1 1))
                        (log (sample 1 1) ++ [EvMod 55 5; EvCall r true])) /\
    run_program sample_process (sample 1 1)
    = Val (1, sample_process,
           mkMachine (heap (sample 1 1))
                     (log (sample 1 1) ++ [EvMod 55 5; EvCall r true])).
Proof.
  apply (main_exit_status sample_process (sample 1 1) 5 56).
  - unfold uint32, UINT32_MOD; simpl; lia.
  - unfold uint32, UINT32_MOD; simpl; lia.
Defined.

(** C10: with the fixture [(a = 5, d = 55)], [main] returns exactly 1. *)
Theorem main_returns_one (s : machine) :
  exists s', main s = Val (1, s').
Proof. eexists. apply main_run. Qed.

(** ** Divisibility laws of the predicate

    What callers can rely on when they combine answers of [foobar] on
    different pairs.  Each pair may live in a machine and at a location of
    its own. *)

Lemma foobar_true_inv s r x y s' :
  holds s r x y ->
  foobar r s = Val (true, s') ->
  0 < x /\ 0 < y /\ (x | y).
Proof.
  intros Hpair Hrun.
  pose proof Hpair as (_ & Hx & Hy); cbn in Hx, Hy. unfold uint32 in Hx, Hy.
  rewrite (foobar_run _ _ _ _ Hpair) in Hrun. injection Hrun as Hb _.
  apply divides_nz_true in Hb as (Hnx & Hny & Hm).
  repeat split; try lia. now apply Z.mod_divide.
Qed.

Lemma foobar_true_intro s r x y :
  holds s r x y ->
  x <> 0 -> y <> 0 -> (x | y) ->
  exists s', foobar r s = Val (true, s').
Proof.
  intros Hpair Hnx Hny Hdiv. eexists.
  rewrite (foobar_run _ _ _ _ Hpair). do 2 f_equal.
  apply divides_nz_true. repeat split; try assumption.
  now apply Z.mod_divide.
Qed.

(** The predicate is transitive: if it holds of [(a, b)] and of [(b, c)],
    it holds of [(a, c)]. *)
Theorem foobar_trans (s1 s2 s3 s1' s2' : machine) (r1 r2 r3 : ref)
        (x y z : Z) :
  holds s1 r1 x y ->
  holds s2 r2 y z ->
  holds s3 r3 x z ->
  foobar r1 s1 = Val (true, s1') ->
  foobar r2 s2 = Val (true, s2') ->
  exists s3', foobar r3 s3 = Val (true, s3').
Proof.
  intros H1 H2 H3 Hxy Hyz.
  apply (foobar_true_inv _ _ _ _ _ H1) in Hxy as (Hx & _ & Dxy).
  apply (foobar_true_inv _ _ _ _ _ H2) in Hyz as (_ & Hz & Dyz).
  apply (foobar_true_intro _ _ _ _ H3); try lia.
  exact (Z.divide_trans _ _ _ Dxy Dyz).
Qed.

Lemma foobar_trans_witness :
  exists s3', foobar 1%positive (sample 2 18) = Val (true, s3').
Proof.
  eapply (foobar_trans (sample 2 6) (sample 6 18) (sample 2 18) _ _
                       1%positive 1%positive 1%positive 2 6 18).
  - split; [reflexivity | split; unfold uint32, UINT32_MOD; simpl; lia].
  - split; [reflexivity | split; unfold uint32, UINT32_MOD; simpl; lia].
  - split; [reflexivity | split; unfold uint32, UINT32_MOD; simpl; lia].
  - reflexivity.
  - reflexivity.
Defined.

(** The predicate is antisymmetric: if it holds of [(a, b)] and of the
    swapped pair [(b, a)], the two fields are equal. *)
Theorem foobar_antisym (s1 s2 s1' s2' : machine) (r1 r2 : ref) (x y : Z) :
  holds s1 r1 x y ->
  holds s2 r2 y x ->
  foobar r1 s1 = Val (true, s1') ->
  foobar r2 s2 = Val (true, s2') ->
  x = y.
Proof.
  intros H1 H2 Hxy Hyx.
  apply (foobar_true_inv _ _ _ _ _ H1) in Hxy as (Hx & Hy & Dxy).
  apply (foobar_true_inv _ _ _ _ _ H2) in Hyx as (_ & _ & Dyx).
  apply Z.divide_antisym_nonneg; solve [lia | assumption].
Qed.

Lemma foobar_antisym_witness : 9 = 9.
Proof.
  eapply (foobar_antisym (sample 9 9) sample_nine _ _ 1%positive 2%positive 9 9).
  - split; [reflexivity | split; unfold uint32, UINT32_MOD; simpl; lia].
  - split; [reflexivity | split; unfold uint32, UINT32_MOD; simpl; lia].
  - reflexivity.
  - reflexivity.
Defined.

(** The predicate holds exactly of the positive multiples: it returns
    [true] on [(a, d)] iff [a] is nonzero and [d = k * a] for some
    [k >= 1]. *)
Theorem foobar_multiple (s : machine) (r : ref) (x y : Z) :
  holds s r x y ->
  exists b s',
    foobar r s = Val (b, s') /\
    (b = true <-> x <> 0 /\ exists k, 1 <= k /\ y = k * x).
Proof.
  intros Hpair.
  pose proof Hpair as (_ & Hx & Hy); cbn in Hx, Hy. unfold uint32 in Hx, Hy.
  eexists _, _. split; [apply (foobar_run _ _ _ _ Hpair) |].
  rewrite divides_nz_true. split.
  - intros (Hnx & Hny & Hm). split; [exact Hnx |].
    apply Z.mod_divide in Hm as [k Hk]; [| exact Hnx].
    exists k. split; [nia | exact Hk].
  - intros (Hnx & k & Hk & ->). repeat split; [exact Hnx | nia |].
    now apply Z.mod_mul.
Qed.

Lemma foobar_multiple_witness :
  exists b s',
    foobar 1%positive (sample 65537 4294967295) = Val (b, s') /\
    (b = true <-> 65537 <> 0 /\ exists k, 1 <= k /\ 4294967295 = k * 65537).
Proof.
  apply (foobar_multiple (sample 65537 4294967295) 1%positive 65537 4294967295).
  split; [reflexivity | split; unfold uint32, UINT32_MOD; simpl; lia].
Defined.

(** When [d < 2 * a] (in particular whenever the top bit of [a] is set,
    since [d < 2^32]), the predicate returns [true] iff [d = a]: no proper
    multiple of [a] fits. *)
Theorem foobar_no_proper_multiple (s : machine) (r : ref) (x y : Z) :
  holds s r x y ->
  y < 2 * x \/ 2 ^ 31 <= x ->
  exists b s',
    foobar r s = Val (b, s') /\
    (b = true <-> y = x).
Proof.
  intros Hpair Hsmall.
  pose proof Hpair as (_ & Hx & Hy); cbn in Hx, Hy.
  unfold uint32, UINT32_MOD in Hx, Hy.
  assert (Hlt : y < 2 * x) by (destruct Hsmall; lia).
  eexists _, _. split; [apply (foobar_run _ _ _ _ Hpair) |].
  rewrite divides_nz_true. split.
  - intros (Hnx & Hny & Hm).
    apply Z.mod_divide in Hm as [k Hk]; [| exact Hnx].
    assert (Hk0 : 0 < k) by nia.
    assert (Hk2 : k < 2) by nia.
    assert (k = 1) as -> by lia. lia.
  - intros ->. repeat split; try lia. apply Z.mod_same. lia.
Qed.

Lemma foobar_no_proper_multiple_witness :
  exists b s',
    foobar 1%positive (sample 2147483648 4294967295) = Val (b, s') /\
    (b = true <-> 4294967295 = 2147483648).
Proof.
  apply (foobar_no_proper_multiple
           (sample 2147483648 4294967295) 1%positive 2147483648 4294967295).
  - split; [reflexivity | split; unfold uint32, UINT32_MOD; simpl; lia].
  - right. lia.
Defined.
